(** * arcade geometry value types: Rect, Box and the parabola helper

  A shallow embedding of [arcade/types/rect.py], [arcade/types/box.py]
  and [arcade/draw/parabola.py].

  Numbers.  The Python code computes on [AsFloat = Union[float, int]].
  Here a number is an exact rational ([Q]); the arithmetic operators are
  the field operations and the comparisons are the exact ones.  Rounding,
  NaN and the infinities are therefore outside the model, with one
  exception: the literal [float("inf")] of [Rect.max_size] is an explicit
  extra point above every number.  Every concrete input used below is a
  small integer, on which binary64 arithmetic is exact, so each
  evaluation agrees with what the interpreter prints.

  Equality of numbers is [==] ([Qeq]), which is what Python's [==]
  decides on numbers; two rects are compared field by field with it, as
  tuple equality does. *)

From Stdlib Require Import ZArith QArith Qabs Qminmax Lqa Bool List.
Import ListNotations.
Open Scope Q_scope.

(** ** Python built-ins used by the sources *)

Module Py.

(** [a < b], [a <= b], [a > b], [a >= b], [a == b], [a != b]. *)
Definition lt (a b : Q) : bool := negb (Qle_bool b a).
Definition le (a b : Q) : bool := Qle_bool a b.
Definition gt (a b : Q) : bool := lt b a.
Definition ge (a b : Q) : bool := le b a.
Definition eq (a b : Q) : bool := Qeq_bool a b.
Definition ne (a b : Q) : bool := negb (Qeq_bool a b).

(** [max(a, b)] keeps its first argument unless the second is strictly
    greater; [min(a, b)] keeps it unless the second is strictly less. *)
Definition max (a b : Q) : Q := if gt b a then b else a.
Definition min (a b : Q) : Q := if lt b a then b else a.

(** [abs(a)]. *)
Definition abs (a : Q) : Q := Qabs a.

(** Truth value of an optional number: [None] and zero are falsy. *)
Definition truthy (a : option Q) : bool :=
  match a with
  | None => false
  | Some v => ne v 0
  end.

(** [a / b] with a divisor that may be zero: [ZeroDivisionError] is
    [None]. *)
Definition div (a b : Q) : option Q :=
  if eq b 0 then None else Some (a / b).

(** [a or d] on an optional number: the default [d] replaces a falsy
    [a]. *)
Definition or_ (a : option Q) (d : Q) : Q :=
  match a with
  | Some v => if truthy a then v else d
  | None => d
  end.

(** A number or [float("inf")]. *)
Inductive ext : Type :=
| Fin (q : Q)
| Inf.

(** [a or float("inf")]. *)
Definition or_inf (a : option Q) : ext :=
  match a with
  | Some v => if truthy a then Fin v else Inf
  | None => Inf
  end.

(** [min(a, b)] where [a] may be [float("inf")] and [b] is a number:
    [b < float("inf")] holds for every number [b], so [b] is kept. *)
Definition min_ext (a : ext) (b : Q) : Q :=
  match a with
  | Fin q => min q b
  | Inf => b
  end.


End Py.

(** ** pyglet's [Vec2] and the anchor points *)

Module Vec2.
Record t : Type := mk { x : Q; y : Q }.
End Vec2.

Module AnchorPoint.
Definition BOTTOM_LEFT := Vec2.mk 0 0.
Definition BOTTOM_CENTER := Vec2.mk (1 # 2) 0.
Definition BOTTOM_RIGHT := Vec2.mk 1 0.
Definition CENTER_LEFT := Vec2.mk 0 (1 # 2).
Definition CENTER_RIGHT := Vec2.mk 1 (1 # 2).
Definition TOP_LEFT := Vec2.mk 0 1.
Definition TOP_CENTER := Vec2.mk (1 # 2) 1.
Definition TOP_RIGHT := Vec2.mk 1 1.
End AnchorPoint.

(** ** [arcade/types/rect.py] *)

Module Rect.

(** [class Rect(NamedTuple)]: eight fields, in this order. *)
Record t : Type := mk {
  left : Q;
  right : Q;
  bottom : Q;
  top : Q;
  width : Q;
  height : Q;
  x : Q;
  y : Q
}.

(** The bare tuple a constructor hands to [Rect.__new__(cls, *rect)]. *)
Definition attrs : Type := (Q * Q * Q * Q * Q * Q * Q * Q)%type.

Definition new (a : attrs) : t :=
  let '(l, r, b, t, w, h, cx, cy) := a in mk l r b t w h cx cy.

(** The fields as the underlying tuple holds them. *)
Definition fields (self : t) : list Q :=
  [left self; right self; bottom self; top self;
   width self; height self; x self; y self].

(** [len(self)], inherited from [tuple]. *)
Definition len (self : t) : nat := length (fields self).

(** [bool(self)]: the class defines neither [__bool__] nor [__len__], so
    the truth value is the tuple's, [len(self) != 0]. *)
Definition truth (self : t) : bool := negb (Nat.eqb (len self) 0).

(** Tuple equality, [self == other]. *)
Definition eqb (a b : t) : bool :=
  Py.eq (left a) (left b) && Py.eq (right a) (right b)
  && Py.eq (bottom a) (bottom b) && Py.eq (top a) (top b)
  && Py.eq (width a) (width b) && Py.eq (height a) (height b)
  && Py.eq (x a) (x b) && Py.eq (y a) (y b).

(** *** The named constructors *)

Definition LRBT_as_new_attrs (left right bottom top : Q) : attrs :=
  let width := right - left in
  let height := top - bottom in
  let x := left + (width / 2) in
  let y := bottom + (height / 2) in
  (left, right, bottom, top, width, height, x, y).

Definition LRBT (left right bottom top : Q) : t :=
  new (LRBT_as_new_attrs left right bottom top).

Definition LBWH_as_new_attrs (left bottom width height : Q) : attrs :=
  let right := left + width in
  let top := bottom + height in
  let x := left + (width / 2) in
  let y := bottom + (height / 2) in
  (left, right, bottom, top, width, height, x, y).

Definition LBWH (left bottom width height : Q) : t :=
  new (LBWH_as_new_attrs left bottom width height).

Definition XYWH_to_rect_attrs (x y width height : Q) : attrs :=
  let left := x - (width / 2) in
  let right := x + (width / 2) in
  let bottom := y - (width / 2) in
  let top := y + (width / 2) in
  (left, right, bottom, top, width, height, x, y).

Definition XYWH (x y width height : Q) : t :=
  new (XYWH_to_rect_attrs x y width height).

Definition XYRR_to_rect_attrs (x y half_width half_height : Q) : attrs :=
  let left := x - half_width in
  let right := x + half_width in
  let bottom := y - half_width in
  let top := y + half_width in
  (left, right, bottom, top, half_width * 2, half_height * 2, x, y).

Definition XYRR (x y half_width half_height : Q) : t :=
  new (XYRR_to_rect_attrs x y half_width half_height).

(** [Viewport] takes integers; [/] is true division. *)
Definition Viewport_to_rect_attrs (x y width height : Z) : attrs :=
  let left := inject_Z x - (inject_Z width / 2) in
  let right := inject_Z x + (inject_Z width / 2) in
  let bottom := inject_Z y - (inject_Z width / 2) in
  let top := inject_Z y + (inject_Z width / 2) in
  (left, right, bottom, top, inject_Z width, inject_Z height,
   inject_Z x, inject_Z y).

Definition Viewport (x y width height : Z) : t :=
  new (Viewport_to_rect_attrs x y width height).

(** *** Methods of [Rect] *)

Definition center (self : t) : Vec2.t := Vec2.mk (x self) (y self).

Definition size (self : t) : Vec2.t := Vec2.mk (width self) (height self).

(** [at_position(position)]. *)
Definition at_position (self : t) (position : Vec2.t) : t :=
  XYWH (Vec2.x position) (Vec2.y position) (width self) (height self).

(** [move(dx, dy)]; both arguments default to [0.0]. *)
Definition move (self : t) (dx dy : Q) : t :=
  XYWH (x self + dx) (y self + dy) (width self) (height self).

(** [resize(new_size, anchor)]; [anchor] defaults to
    [AnchorPoint.CENTER].  The two ratios divide by [self.width] and
    [self.height], in that order; a zero divisor raises. *)
Definition resize (self : t) (new_size anchor : Vec2.t) : option t :=
  let anchor_x := left self + Vec2.x anchor * width self in
  let anchor_y := bottom self + Vec2.y anchor * height self in
  match Py.div (Vec2.x new_size) (width self) with
  | None => None
  | Some ratio_x =>
    match Py.div (Vec2.y new_size) (height self) with
    | None => None
    | Some ratio_y =>
      let adjusted_left := anchor_x + (left self - anchor_x) * ratio_x in
      let adjusted_right := anchor_x + (right self - anchor_x) * ratio_x in
      let adjusted_top := anchor_y + (top self - anchor_y) * ratio_y in
      let adjusted_bottom := anchor_y + (bottom self - anchor_y) * ratio_y in
      Some (LRBT adjusted_left adjusted_right adjusted_top adjusted_bottom)
    end
  end.

(** [scale(new_scale, anchor)]; [anchor] defaults to
    [AnchorPoint.CENTER]. *)
Definition scale (self : t) (new_scale : Q) (anchor : Vec2.t) : t :=
  let anchor_x := left self + Vec2.x anchor * width self in
  let anchor_y := bottom self + Vec2.y anchor * height self in
  let adjusted_left := anchor_x + (left self - anchor_x) * new_scale in
  let adjusted_right := anchor_x + (right self - anchor_x) * new_scale in
  let adjusted_top := anchor_y + (top self - anchor_y) * new_scale in
  let adjusted_bottom := anchor_y + (bottom self - anchor_y) * new_scale in
  LRBT adjusted_left adjusted_right adjusted_top adjusted_bottom.





(** [min_size(width=None, height=None)]. *)
Definition min_size (self : t) (width height : option Q) : t :=
  let left := Rect.left self in
  let bottom := Rect.bottom self in
  let width := Py.max (Py.or_ width 0) (Rect.width self) in
  let height := Py.max (Py.or_ height 0) (Rect.height self) in
  LBWH left bottom width height.

(** [max_size(width=None, height=None)]. *)
Definition max_size (self : t) (width height : option Q) : t :=
  let left := Rect.left self in
  let bottom := Rect.bottom self in
  let width := Py.min_ext (Py.or_inf width) (Rect.width self) in
  let height := Py.min_ext (Py.or_inf height) (Rect.height self) in
  LBWH left bottom width height.

(** [union(other)], also [self | other]. *)
Definition union (self other : t) : t :=
  let left := Py.min (Rect.left self) (Rect.left other) in
  let right := Py.max (Rect.right self) (Rect.right other) in
  let bottom := Py.min (Rect.bottom self) (Rect.bottom other) in
  let top := Py.max (Rect.top self) (Rect.top other) in
  LRBT left right bottom top.

Definition __or__ (self other : t) : t := union self other.

Definition overlaps (self other : t) : bool :=
  let u := __or__ self other in
  Py.gt (width u) 0 || Py.gt (height u) 0.

Definition collides (self other : t) : bool :=
  (Py.ge (right self) (left other) && Py.ge (right other) (left self))
  && (Py.ge (top self) (bottom other) && Py.ge (top other) (bottom self)).

(** [intersect(other)], also [self & other]; [None] is Python's [None]. *)
Definition intersect (self other : t) : option t :=
  let intersecting := collides self other in
  if negb intersecting then None
  else
    let left := Py.max (Rect.left self) (Rect.left other) in
    let right := Py.min (Rect.right self) (Rect.right other) in
    let bottom := Py.max (Rect.bottom self) (Rect.bottom other) in
    let top := Py.min (Rect.top self) (Rect.top other) in
    Some (LRBT left right bottom top).

Definition __and__ (self other : t) : option t := intersect self other.

(** [point_in_rect(point)]: [a < b < c] is [a < b and b < c]. *)
Definition point_in_rect (self : t) (point : Vec2.t) : bool :=
  (Py.lt (left self) (Vec2.x point) && Py.lt (Vec2.x point) (right self))
  && (Py.lt (bottom self) (Vec2.y point) && Py.lt (Vec2.y point) (top self)).

(** [LRBT.from_rect(rect)]. *)
Definition LRBT_from_rect (rect : t) : Q * Q * Q * Q :=
  (left rect, right rect, bottom rect, top rect).

(** *** Accessors, alignment and conversions of [Rect] *)

Definition center_x (self : t) : Q := x self.

Definition center_y (self : t) : Q := y self.

Definition bottom_left (self : t) : Vec2.t := Vec2.mk (left self) (bottom self).

Definition bottom_right (self : t) : Vec2.t :=
  Vec2.mk (right self) (bottom self).

Definition top_left (self : t) : Vec2.t := Vec2.mk (left self) (top self).

Definition top_right (self : t) : Vec2.t := Vec2.mk (right self) (top self).




(** [to_points()]: the four corners, as a tuple. *)
Definition to_points (self : t) : list Vec2.t :=
  [Vec2.mk (left self) (bottom self);
   Vec2.mk (left self) (top self);
   Vec2.mk (right self) (top self);
   Vec2.mk (right self) (bottom self)].

(** [Rect.from_rect(rect)], the static method of the base class. *)
Definition Rect_from_rect (rect : t) : attrs :=
  (left rect, right rect, top rect, bottom rect,
   width rect, height rect, x rect, y rect).





End Rect.

(** ** [arcade/types/box.py] *)

(** pyglet's [Vec3]. *)
Module Vec3.
Record t : Type := mk { x : Q; y : Q; z : Q }.
End Vec3.

(** [Point3]: a plain tuple of three numbers. *)
Definition Point3 : Type := (Q * Q * Q)%type.

Module Box.

(** [class Box(NamedTuple)]: twelve fields, in this order. *)
Record t : Type := mk {
  left : Q;
  right : Q;
  bottom : Q;
  top : Q;
  near : Q;
  far : Q;
  width : Q;
  height : Q;
  depth : Q;
  x : Q;
  y : Q;
  z : Q
}.

Definition XYZWHD (x y z width height depth : Q) : t :=
  let h_width := width / 2 in
  let h_height := height / 2 in
  let h_depth := depth / 2 in
  mk (x - h_width) (x + h_width)
     (y - h_height) (y + h_height)
     (z - h_depth) (z + h_depth)
     width height depth
     x y z.

Definition LRBTNF (left right bottom top near far : Q) : t :=
  let width := right - left in
  let height := top - bottom in
  let depth := far - near in
  mk left right bottom top near far
     width height depth
     (left + width / 2) (bottom + height / 2) (near + depth / 2).

Definition bottom_left_near (self : t) : Vec3.t :=
  Vec3.mk (left self) (bottom self) (near self).


Definition move (self : t) (dx dy dz : Q) : t :=
  XYZWHD (x self + dx) (y self + dy) (z self + dz)
         (width self) (height self) (depth self).

(** [union(other)], also [self | other]. *)
Definition union (self other : t) : t :=
  let left := Py.min (Box.left self) (Box.left other) in
  let right := Py.max (Box.right self) (Box.right other) in
  let bottom := Py.min (Box.bottom self) (Box.bottom other) in
  let top := Py.max (Box.top self) (Box.top other) in
  let near := Py.min (Box.near self) (Box.near other) in
  let far := Py.max (Box.far self) (Box.far other) in
  LRBTNF left right bottom top near far.

Definition overlaps (self other : t) : bool :=
  Py.gt ((width other + width self) / 2) (Py.abs (x self - x other))
  && Py.gt ((height other + height self) / 2) (Py.abs (y self - y other))
  && Py.gt ((depth other + depth self) / 2) (Py.abs (z self - z other)).

(** [intersection(other)], also [self & other]. *)
Definition intersection (self other : t) : option t :=
  let intersecting := overlaps self other in
  if negb intersecting then None
  else
    let left := Py.max (Box.left self) (Box.left other) in
    let right := Py.min (Box.right self) (Box.right other) in
    let bottom := Py.max (Box.bottom self) (Box.bottom other) in
    let top := Py.min (Box.top self) (Box.top other) in
    let near := Py.max (Box.near self) (Box.near other) in
    let far := Py.min (Box.far self) (Box.far other) in
    Some (LRBTNF left right bottom top near far).

Definition __and__ (self other : t) : option t := intersection self other.

(** [point_in_box(point)]: [a <= b <= c] is [a <= b and b <= c]. *)
Definition point_in_box (self : t) (point : Point3) : bool :=
  let '(x, y, z) := point in
  (Py.le (left self) x && Py.le x (right self))
  && (Py.le (bottom self) y && Py.le y (top self))
  && (Py.le (near self) z && Py.le z (far self)).

(** [point in self]. *)
Definition __contains__ (self : t) (point : Point3) : bool :=
  point_in_box self point.

(** [to_points()]: the eight corners, in the documented order. *)
Definition to_points (self : t) : list Vec3.t :=
  let left := Box.left self in
  let bottom := Box.bottom self in
  let right := Box.right self in
  let top := Box.top self in
  let near := Box.near self in
  let far := Box.far self in
  [Vec3.mk left bottom near; Vec3.mk left top near;
   Vec3.mk right top near; Vec3.mk right bottom near;
   Vec3.mk left bottom far; Vec3.mk left top far;
   Vec3.mk right top far; Vec3.mk right bottom far].

Definition __bool__ (self : t) : bool :=
  Py.ne (width self) 0 && Py.ne (height self) 0 && Py.ne (depth self) 0.

(** *** Further accessors of [Box] *)

(** Tuple equality, [self == other]. *)
Definition eqb (a b : t) : bool :=
  Py.eq (left a) (left b) && Py.eq (right a) (right b)
  && Py.eq (bottom a) (bottom b) && Py.eq (top a) (top b)
  && Py.eq (near a) (near b) && Py.eq (far a) (far b)
  && Py.eq (width a) (width b) && Py.eq (height a) (height b)
  && Py.eq (depth a) (depth b)
  && Py.eq (x a) (x b) && Py.eq (y a) (y b) && Py.eq (z a) (z b).

Definition center (self : t) : Vec3.t := Vec3.mk (x self) (y self) (z self).

Definition size (self : t) : Vec3.t :=
  Vec3.mk (width self) (height self) (depth self).

Definition bottom_left_far (self : t) : Vec3.t :=
  Vec3.mk (left self) (bottom self) (far self).

Definition bottom_right_near (self : t) : Vec3.t :=
  Vec3.mk (right self) (bottom self) (near self).

Definition bottom_right_far (self : t) : Vec3.t :=
  Vec3.mk (right self) (bottom self) (far self).

Definition top_left_near (self : t) : Vec3.t :=
  Vec3.mk (left self) (top self) (near self).

Definition top_left_far (self : t) : Vec3.t :=
  Vec3.mk (left self) (top self) (far self).

Definition top_right_near (self : t) : Vec3.t :=
  Vec3.mk (right self) (top self) (near self).

Definition top_right_far (self : t) : Vec3.t :=
  Vec3.mk (right self) (top self) (far self).

(** [at_position(position)]. *)
Definition at_position (self : t) (position : Point3) : t :=
  let '(x, y, z) := position in
  XYZWHD x y z (width self) (height self) (depth self).

Definition __or__ (self other : t) : t := union self other.

(** The faces are rects built with [LBWH] of [rect.py]. *)
Definition near_face (self : t) : Rect.t :=
  Rect.LBWH (left self) (bottom self) (width self) (height self).

Definition far_face (self : t) : Rect.t :=
  Rect.LBWH (left self) (bottom self) (width self) (height self).

Definition left_face (self : t) : Rect.t :=
  Rect.LBWH (near self) (bottom self) (depth self) (height self).

Definition right_face (self : t) : Rect.t :=
  Rect.LBWH (near self) (bottom self) (depth self) (height self).

Definition top_face (self : t) : Rect.t :=
  Rect.LBWH (left self) (near self) (width self) (depth self).

Definition bottom_face (self : t) : Rect.t :=
  Rect.LBWH (left self) (near self) (width self) (depth self).

Definition top_face_center (self : t) : Vec3.t :=
  Vec3.mk (x self) (top self) (z self).

Definition bottom_face_center (self : t) : Vec3.t :=
  Vec3.mk (x self) (top self) (z self).

End Box.

(** ** [arcade/draw/parabola.py] *)

Module Draw.

Section Calls.

(** [arcade.types.RGBA255] is declared outside the sources; a colour is
    only passed on, so its type stays a parameter. *)
Variable RGBA255 : Type.

(** The arc primitives live in [arcade/draw/arc.py], which is not among
    the sources.  A call of one is an event carrying its positional
    arguments. *)
Inductive call : Type :=
| draw_arc_filled
    (center_x center_y width height : Q) (color : RGBA255)
    (start_angle end_angle tilt_angle : Q)
| draw_arc_outline
    (center_x center_y width height : Q) (color : RGBA255)
    (start_angle end_angle border_width tilt_angle : Q).

(** A procedure extends the log of calls made so far and returns a
    value. *)
Definition proc (A : Type) : Type := list call -> A * list call.

Definition invoke (c : call) : proc unit := fun log => (tt, log ++ [c]).

(** [draw_parabola_filled]; [tilt_angle] defaults to [0].  The result
    [tt] is Python's [None]. *)
Definition draw_parabola_filled
  (start_x start_y end_x height : Q) (color : RGBA255) (tilt_angle : Q)
  : proc unit :=
  let center_x := (start_x + end_x) / 2 in
  let center_y := start_y + height in
  let start_angle := 0 in
  let end_angle := 180 in
  let width := start_x - end_x in
  invoke (draw_arc_filled center_x center_y width height color
                          start_angle end_angle tilt_angle).

(** [draw_parabola_outline]; [border_width] defaults to [1] and
    [tilt_angle] to [0]. *)
Definition draw_parabola_outline
  (start_x start_y end_x height : Q) (color : RGBA255)
  (border_width tilt_angle : Q) : proc unit :=
  let center_x := (start_x + end_x) / 2 in
  let center_y := start_y + height in
  let start_angle := 0 in
  let end_angle := 180 in
  let width := start_x - end_x in
  invoke (draw_arc_outline center_x center_y width height color
                           start_angle end_angle border_width tilt_angle).

(** The calls a procedure makes when run on an empty log. *)
Definition calls {A : Type} (m : proc A) : list call := snd (m []).

End Calls.

Arguments draw_arc_filled {RGBA255}.
Arguments draw_arc_outline {RGBA255}.
Arguments invoke {RGBA255}.
Arguments draw_parabola_filled {RGBA255}.
Arguments draw_parabola_outline {RGBA255}.
Arguments calls {RGBA255 A}.

End Draw.

(** ** Properties named by the specification *)

Module Spec.

(** The four equations the specification lists as the invariants of a
    rect, decided with Python's [==]. *)
Definition rect_invariant (r : Rect.t) : bool :=
  Py.eq (Rect.right r - Rect.left r) (Rect.width r)
  && Py.eq (Rect.top r - Rect.bottom r) (Rect.height r)
  && Py.eq (Rect.x r) (Rect.left r + Rect.width r / 2)
  && Py.eq (Rect.y r) (Rect.bottom r + Rect.height r / 2).

(** The world-space point at fraction [anchor] of a rect. *)
Definition anchor_point (r : Rect.t) (anchor : Vec2.t) : Vec2.t :=
  Vec2.mk (Rect.left r + Vec2.x anchor * Rect.width r)
          (Rect.bottom r + Vec2.y anchor * Rect.height r).

(** The floor [min_size] applies: the argument, or [0] without one. *)
Definition floor (arg : option Q) : Q :=
  match arg with
  | Some v => v
  | None => 0
  end.

(** The six equations of a box: each extent is the difference of its
    bounds and each centre coordinate is the middle of them. *)
Definition box_invariant (b : Box.t) : bool :=
  Py.eq (Box.right b - Box.left b) (Box.width b)
  && Py.eq (Box.top b - Box.bottom b) (Box.height b)
  && Py.eq (Box.far b - Box.near b) (Box.depth b)
  && Py.eq (Box.x b) (Box.left b + Box.width b / 2)
  && Py.eq (Box.y b) (Box.bottom b + Box.height b / 2)
  && Py.eq (Box.z b) (Box.near b + Box.depth b / 2).

(** Equality of two optional rects, [a == b] where either may be
    [None]. *)
Definition option_rect_eqb (a b : option Rect.t) : bool :=
  match a, b with
  | Some r, Some r' => Rect.eqb r r'
  | None, None => true
  | _, _ => false
  end.

Definition option_box_eqb (a b : option Box.t) : bool :=
  match a, b with
  | Some r, Some r' => Box.eqb r r'
  | None, None => true
  | _, _ => false
  end.

End Spec.

(** * Proofs *)

(** ** The comparisons and [max]/[min] of Python against those of [Q] *)

Lemma lt_iff (a b : Q) : Py.lt a b = true <-> a < b.
Proof.
  unfold Py.lt. rewrite negb_true_iff, <- not_true_iff_false, Qle_bool_iff.
  split; intro H; [apply Qnot_le_lt | apply Qlt_not_le]; exact H.
Qed.

Lemma lt_false_iff (a b : Q) : Py.lt a b = false <-> b <= a.
Proof.
  unfold Py.lt. rewrite negb_false_iff. apply Qle_bool_iff.
Qed.

Lemma le_iff (a b : Q) : Py.le a b = true <-> a <= b.
Proof. apply Qle_bool_iff. Qed.

Lemma le_false_iff (a b : Q) : Py.le a b = false <-> b < a.
Proof.
  unfold Py.le. rewrite <- not_true_iff_false, Qle_bool_iff.
  split; intro H; [apply Qnot_le_lt | apply Qlt_not_le]; exact H.
Qed.

Lemma gt_iff (a b : Q) : Py.gt a b = true <-> b < a.
Proof. apply lt_iff. Qed.

Lemma gt_false_iff (a b : Q) : Py.gt a b = false <-> a <= b.
Proof. apply lt_false_iff. Qed.

Lemma ge_iff (a b : Q) : Py.ge a b = true <-> b <= a.
Proof. apply le_iff. Qed.

Lemma ge_false_iff (a b : Q) : Py.ge a b = false <-> a < b.
Proof. apply le_false_iff. Qed.

Lemma eq_iff (a b : Q) : Py.eq a b = true <-> a == b.
Proof. apply Qeq_bool_iff. Qed.

Lemma eq_false_iff (a b : Q) : Py.eq a b = false <-> ~ a == b.
Proof.
  unfold Py.eq. rewrite <- not_true_iff_false, Qeq_bool_iff. tauto.
Qed.

Lemma ne_iff (a b : Q) : Py.ne a b = true <-> ~ a == b.
Proof. unfold Py.ne. rewrite negb_true_iff. apply eq_false_iff. Qed.

Lemma ne_false_iff (a b : Q) : Py.ne a b = false <-> a == b.
Proof. unfold Py.ne. rewrite negb_false_iff. apply eq_iff. Qed.

(** Turns every boolean comparison of the goal and the context into the
    order of [Q]. *)
Ltac to_order :=
  repeat rewrite ?andb_true_iff, ?orb_true_iff, ?andb_false_iff,
    ?orb_false_iff, ?negb_true_iff, ?negb_false_iff,
    ?lt_iff, ?le_iff, ?gt_iff, ?ge_iff, ?eq_iff, ?ne_iff,
    ?lt_false_iff, ?le_false_iff, ?gt_false_iff, ?ge_false_iff,
    ?eq_false_iff, ?ne_false_iff in *.

Lemma max_is_Qmax (a b : Q) : Py.max a b == Qmax a b.
Proof.
  unfold Py.max. destruct (Py.gt b a) eqn:E; to_order.
  - symmetry. apply Q.max_r. apply Qlt_le_weak, E.
  - symmetry. apply Q.max_l. exact E.
Qed.

Lemma min_is_Qmin (a b : Q) : Py.min a b == Qmin a b.
Proof.
  unfold Py.min. destruct (Py.lt b a) eqn:E; to_order.
  - symmetry. apply Q.min_r. apply Qlt_le_weak, E.
  - symmetry. apply Q.min_l. exact E.
Qed.

(** ** The named constructors of [Rect] *)

(** Unfolds a constructor call down to the record and its fields. *)
Ltac open_rect :=
  unfold Spec.rect_invariant, Spec.anchor_point,
    Rect.LRBT, Rect.LBWH, Rect.XYWH, Rect.XYRR, Rect.Viewport,
    Rect.LRBT_as_new_attrs, Rect.LBWH_as_new_attrs,
    Rect.XYWH_to_rect_attrs, Rect.XYRR_to_rect_attrs,
    Rect.Viewport_to_rect_attrs, Rect.new in *;
  cbn [Rect.left Rect.right Rect.bottom Rect.top Rect.width Rect.height
       Rect.x Rect.y Vec2.x Vec2.y] in *.

(** Halving is multiplication by the constant [1/2]. *)
Ltac halves := unfold Qdiv in *; change (/ 2) with (1 # 2) in *.

(** The corner-based constructors keep the four equations. *)
Lemma LRBT_invariant (left right bottom top : Q) :
  Spec.rect_invariant (Rect.LRBT left right bottom top) = true.
Proof. open_rect. halves. to_order. repeat split; lra. Qed.

Lemma LBWH_invariant (left bottom width height : Q) :
  Spec.rect_invariant (Rect.LBWH left bottom width height) = true.
Proof. open_rect. halves. to_order. repeat split; lra. Qed.

(** The centre-based ones keep them exactly on squares: the vertical
    bounds are taken from the width. *)
Lemma XYWH_invariant_iff (x y width height : Q) :
  Spec.rect_invariant (Rect.XYWH x y width height) = true
  <-> width == height.
Proof.
  open_rect. halves. to_order. split.
  - intros [[[_ H] _] _]. lra.
  - intro H. repeat split; lra.
Qed.

Lemma XYRR_invariant_iff (x y half_width half_height : Q) :
  Spec.rect_invariant (Rect.XYRR x y half_width half_height) = true
  <-> half_width == half_height.
Proof.
  open_rect. halves. to_order. split.
  - intros [[[_ H] _] _]. lra.
  - intro H. repeat split; lra.
Qed.

Lemma Viewport_invariant_iff (x y width height : Z) :
  Spec.rect_invariant (Rect.Viewport x y width height) = true
  <-> width = height.
Proof.
  open_rect. halves. to_order. split.
  - intros [[[_ H] _] _]. apply inject_Z_injective. lra.
  - intros ->. repeat split; lra.
Qed.

(** C1 (failing input).  [XYWH(0, 0, 2, 4)] is the rect
    [left=-1, right=1, bottom=-1, top=1, width=2, height=4, x=0, y=0]:
    [top - bottom] is the width [2] and not the height [4], and
    [bottom + height/2] is [1] and not [y = 0].  [XYRR(0, 0, 1, 2)] and
    [Viewport(0, 0, 2, 4)] build the same bounds. *)
Theorem C1_center_constructors_break_invariant :
  let r := Rect.XYWH 0 0 2 4 in
  (Rect.top r - Rect.bottom r == 2 /\ Rect.height r == 4)
  /\ (Rect.bottom r + Rect.height r / 2 == 1 /\ Rect.y r == 0)
  /\ Spec.rect_invariant r = false
  /\ Spec.rect_invariant (Rect.XYRR 0 0 1 2) = false
  /\ Spec.rect_invariant (Rect.Viewport 0 0 2 4) = false.
Proof.
  cbv zeta. repeat split; try reflexivity; open_rect; halves; lra.
Qed.

(** C4.  [XYWH(x, y, w, h)] takes all four bounds from the width:
    [left = x - w/2], [right = x + w/2], [bottom = y - w/2],
    [top = y + w/2], and stores [w], [h], [x], [y] as given;
    [XYRR(x, y, half_width, half_height)] takes all four bounds from
    [half_width] and stores twice the half extents. *)
Theorem C4_center_constructors_use_width (x y w h : Q) :
  Rect.XYWH x y w h
  = Rect.mk (x - w / 2) (x + w / 2) (y - w / 2) (y + w / 2) w h x y
  /\ Rect.XYRR x y w h
     = Rect.mk (x - w) (x + w) (y - w) (y + w) (w * 2) (h * 2) x y.
Proof. split; reflexivity. Qed.

(** ** Truth value *)

Lemma Rect_truth_always (r : Rect.t) : Rect.truth r = true.
Proof. reflexivity. Qed.

Lemma Box_bool_false_iff (b : Box.t) :
  Box.__bool__ b = false
  <-> Box.width b == 0 \/ Box.height b == 0 \/ Box.depth b == 0.
Proof. unfold Box.__bool__. to_order. tauto. Qed.

(** C6 (failing input).  [LRBT(0, 0, 0, 0)] has width and height zero and
    is truthy: [Rect] has no [__bool__], unlike [Box]. *)
Theorem C6_zero_size_rect_is_truthy :
  let r := Rect.LRBT 0 0 0 0 in
  Rect.width r == 0 /\ Rect.height r == 0 /\ Rect.truth r = true.
Proof. cbv zeta. repeat split; reflexivity. Qed.

(** ** [move] *)

(** [move] rebuilds the rect with [XYWH]: the horizontal bounds follow
    the centre, the vertical ones are [width/2] away from it. *)
Lemma move_fields (r : Rect.t) (dx dy : Q) :
  Rect.move r dx dy
  = Rect.mk (Rect.x r + dx - Rect.width r / 2)
            (Rect.x r + dx + Rect.width r / 2)
            (Rect.y r + dy - Rect.width r / 2)
            (Rect.y r + dy + Rect.width r / 2)
            (Rect.width r) (Rect.height r)
            (Rect.x r + dx) (Rect.y r + dy).
Proof. reflexivity. Qed.

(** On a rect that [XYWH] built, [move] is a translation and moving back
    returns the rect. *)
Lemma move_back_XYWH (x y w h dx dy : Q) :
  let r := Rect.XYWH x y w h in
  Rect.eqb (Rect.move (Rect.move r dx dy) (- dx) (- dy)) r = true.
Proof.
  cbv zeta. unfold Rect.eqb, Rect.move. open_rect. halves. to_order.
  repeat split; lra.
Qed.

(** On a rect that [LRBT] built, moving there and back returns the rect
    exactly when it is a square. *)
Lemma move_back_LRBT_iff (l r b t dx dy : Q) :
  let s := Rect.LRBT l r b t in
  Rect.eqb (Rect.move (Rect.move s dx dy) (- dx) (- dy)) s = true
  <-> r - l == t - b.
Proof.
  cbv zeta. unfold Rect.eqb, Rect.move. open_rect. halves. to_order. split.
  - intros [[[[[[[_ _] H] _] _] _] _] _]. lra.
  - intro H. repeat split; lra.
Qed.

(** The statements at the end of [rect.py]: [LRBT(10, 20, 10, 20)] has
    the bounds it was given, centre [(15, 15)] and size [(10, 10)], and
    the square [LRBT(10, 15, 10, 15)] moved by [(2, 3)] has the bounds
    [(12, 17, 13, 18)]. *)
Lemma module_level_statements :
  let r := Rect.LRBT 10 20 10 20 in
  let s := Rect.move (Rect.LRBT 10 15 10 15) 2 3 in
  Rect.LRBT_from_rect r = (10, 20, 10, 20)
  /\ (Vec2.x (Rect.center r) == 15 /\ Vec2.y (Rect.center r) == 15)
  /\ (Vec2.x (Rect.size r) == 10 /\ Vec2.y (Rect.size r) == 10)
  /\ (Rect.left s == 12 /\ Rect.right s == 17
      /\ Rect.bottom s == 13 /\ Rect.top s == 18).
Proof. cbv zeta. repeat split. Qed.

(** C5 (failing input).  [LRBT(0, 10, 0, 20).move(1, 1)] has
    [bottom = 6] and [top = 16] where the translated rect has [1] and
    [21]; moving back by [(-1, -1)] gives [bottom = 5, top = 15], a rect
    different from the first. *)
Theorem C5_move_is_not_a_translation :
  let r := Rect.LRBT 0 10 0 20 in
  let m := Rect.move r 1 1 in
  (Rect.left m == 1 /\ Rect.right m == 11)
  /\ (Rect.bottom m == 6 /\ Rect.top m == 16)
  /\ (Rect.width m == 10 /\ Rect.height m == 20)
  /\ (Rect.bottom (Rect.move m (-1) (-1)) == 5
      /\ Rect.top (Rect.move m (-1) (-1)) == 15)
  /\ Rect.eqb (Rect.move m (-1) (-1)) r = false.
Proof.
  cbv zeta. repeat split; try reflexivity;
    unfold Rect.move; open_rect; halves; lra.
Qed.

(** ** [resize] and [scale] *)




(** C2 (failing input).  [LRBT(0, 10, 0, 10).resize(Vec2(20, 20),
    AnchorPoint.BOTTOM_LEFT)] returns the rect with [bottom = 20],
    [top = 0] and [height = -20], whose bottom-left anchor lies at
    height [20] while that of the first rect lies at [0];
    [scale(2, AnchorPoint.BOTTOM_LEFT)] returns the same rect. *)
Theorem C2_resize_and_scale_flip_the_rect :
  let r := Rect.LRBT 0 10 0 10 in
  let a := AnchorPoint.BOTTOM_LEFT in
  (exists r',
     Rect.resize r (Vec2.mk 20 20) a = Some r'
     /\ (Rect.left r' == 0 /\ Rect.right r' == 20 /\ Rect.width r' == 20)
     /\ (Rect.bottom r' == 20 /\ Rect.top r' == 0 /\ Rect.height r' == -20)
     /\ Vec2.y (Spec.anchor_point r' a) == 20)
  /\ Vec2.y (Spec.anchor_point r a) == 0
  /\ (Rect.bottom (Rect.scale r 2 a) == 20
      /\ Rect.top (Rect.scale r 2 a) == 0
      /\ Rect.height (Rect.scale r 2 a) == -20
      /\ Vec2.y (Spec.anchor_point (Rect.scale r 2 a) a) == 20).
Proof.
  cbv zeta. split; [eexists; split; [reflexivity |] |];
    repeat split; vm_compute; reflexivity.
Qed.

(** ** [union], [overlaps], [collides] and [intersect] *)

Lemma union_bounds (a b : Rect.t) :
  let u := Rect.union a b in
  Rect.left u == Qmin (Rect.left a) (Rect.left b)
  /\ Rect.right u == Qmax (Rect.right a) (Rect.right b)
  /\ Rect.bottom u == Qmin (Rect.bottom a) (Rect.bottom b)
  /\ Rect.top u == Qmax (Rect.top a) (Rect.top b)
  /\ Rect.width u == Rect.right u - Rect.left u
  /\ Rect.height u == Rect.top u - Rect.bottom u.
Proof.
  cbv zeta. unfold Rect.union. open_rect.
  repeat split; try apply max_is_Qmax; try apply min_is_Qmin; reflexivity.
Qed.

(** C3 (counterexample).  [LRBT(0, 1, 0, 1)] and [LRBT(5, 6, 5, 6)] are
    apart: [intersect] returns [None], yet their union [LRBT(0, 6, 0, 6)]
    has width [6], so [overlaps] is true. *)
Lemma C3_absent_intersection_of_overlapping :
  let a := Rect.LRBT 0 1 0 1 in
  let b := Rect.LRBT 5 6 5 6 in
  ~ (Rect.intersect a b = None <-> Rect.overlaps a b = false).
Proof.
  cbv zeta. intros [H _].
  assert (E : Rect.overlaps (Rect.LRBT 0 1 0 1) (Rect.LRBT 5 6 5 6) = true)
    by reflexivity.
  rewrite H in E; [discriminate E | reflexivity].
Qed.

(** The other direction fails too: [LRBT(0, 0, 0, 0)] and itself have a
    union without extent, so [overlaps] is false, and they collide, so
    [intersect] returns a rect. *)
Lemma present_intersection_of_non_overlapping :
  let a := Rect.LRBT 0 0 0 0 in
  Rect.overlaps a a = false /\ Rect.intersect a a <> None.
Proof. cbv zeta. split; [reflexivity | discriminate]. Qed.

(** C3 (amended).  [intersect] returns [None] exactly when [collides]
    is false, and [collides] is the edge comparison in which touching
    edges count; [overlaps] is true exactly when the union has positive
    width or positive height. *)
Theorem C3_intersect_absent_iff_not_collides (a b : Rect.t) :
  (Rect.intersect a b = None <-> Rect.collides a b = false)
  /\ (Rect.collides a b = true
      <-> (Rect.left b <= Rect.right a /\ Rect.left a <= Rect.right b)
          /\ (Rect.bottom b <= Rect.top a /\ Rect.bottom a <= Rect.top b))
  /\ (Rect.overlaps a b = true
      <-> 0 < Rect.width (Rect.union a b)
          \/ 0 < Rect.height (Rect.union a b)).
Proof.
  split; [| split].
  - unfold Rect.intersect. destruct (Rect.collides a b); cbn;
      split; congruence.
  - unfold Rect.collides. to_order. tauto.
  - unfold Rect.overlaps, Rect.__or__. to_order. tauto.
Qed.

(** ** [min_size] and [max_size] *)

(** The floor [width or 0.0] is the argument, and [0] without one: a
    falsy argument is itself zero. *)
Lemma or_zero_is_floor (arg : option Q) : Py.or_ arg 0 == Spec.floor arg.
Proof.
  destruct arg as [v |]; cbn; [| reflexivity].
  destruct (Py.ne v 0) eqn:E; to_order; [reflexivity | symmetry; exact E].
Qed.

(** The ceiling [width or float("inf")] is the argument when it is not
    zero. *)
Lemma or_inf_nonzero (c : Q) : ~ c == 0 -> Py.or_inf (Some c) = Py.Fin c.
Proof.
  intro H. cbn. destruct (Py.ne c 0) eqn:E; to_order;
    [reflexivity | contradiction].
Qed.

(** A ceiling of zero is falsy and is replaced by [float("inf")]:
    [LBWH(0, 0, 10, 10).max_size(width=0)] keeps the width [10]. *)
Lemma max_size_zero_ceiling :
  Py.or_inf (Some 0) = Py.Inf
  /\ Rect.width (Rect.max_size (Rect.LBWH 0 0 10 10) (Some 0) None) == 10.
Proof. split; reflexivity. Qed.

(** C7 (counterexample).  [LRBT(10, 0, 0, 5)] has width [-10];
    [min_size()] without arguments returns a rect of width [0]. *)
Lemma C7_min_size_without_argument_changes_width :
  let r := Rect.LRBT 10 0 0 5 in
  Rect.width r == -10
  /\ Rect.width (Rect.min_size r None None) == 0
  /\ ~ Rect.width (Rect.min_size r None None) == Rect.width r.
Proof.
  cbv zeta. split; [reflexivity | split; [reflexivity |]].
  intro H. vm_compute in H. discriminate H.
Qed.

(** C7 (amended).  [min_size] and [max_size] keep [left] and [bottom].
    [min_size] makes each dimension the greater of the rect's and the
    floor, the floor being the argument or [0] without one, so that
    without an argument a dimension that is not negative is unchanged.
    [max_size] makes each dimension the lesser of the rect's and a
    ceiling that is not zero, and leaves it unchanged without an
    argument. *)
Theorem C7_size_clamps (r : Rect.t) (w h : option Q) :
  let m := Rect.min_size r w h in
  let M := Rect.max_size r w h in
  (Rect.left m = Rect.left r /\ Rect.bottom m = Rect.bottom r
   /\ Rect.width m == Qmax (Spec.floor w) (Rect.width r)
   /\ Rect.height m == Qmax (Spec.floor h) (Rect.height r))
  /\ (w = None -> 0 <= Rect.width r -> Rect.width m == Rect.width r)
  /\ (h = None -> 0 <= Rect.height r -> Rect.height m == Rect.height r)
  /\ (Rect.left M = Rect.left r /\ Rect.bottom M = Rect.bottom r)
  /\ (forall c, w = Some c -> ~ c == 0 ->
        Rect.width M == Qmin c (Rect.width r))
  /\ (forall c, h = Some c -> ~ c == 0 ->
        Rect.height M == Qmin c (Rect.height r))
  /\ (w = None -> Rect.width M = Rect.width r)
  /\ (h = None -> Rect.height M = Rect.height r).
Proof.
  cbv zeta. unfold Rect.min_size, Rect.max_size. open_rect.
  assert (Hmax : forall arg d,
             Py.max (Py.or_ arg 0) d == Qmax (Spec.floor arg) d).
  { intros arg d. rewrite max_is_Qmax, or_zero_is_floor. reflexivity. }
  repeat split.
  - apply Hmax.
  - apply Hmax.
  - intros -> Hw. rewrite Hmax. cbn. apply Q.max_r. exact Hw.
  - intros -> Hh. rewrite Hmax. cbn. apply Q.max_r. exact Hh.
  - intros c -> Hc. rewrite (or_inf_nonzero c Hc). cbn.
    apply min_is_Qmin.
  - intros c -> Hc. rewrite (or_inf_nonzero c Hc). cbn.
    apply min_is_Qmin.
  - intros ->. reflexivity.
  - intros ->. reflexivity.
Qed.

(** C7 at [LBWH(0, 0, 10, 10)]: a ceiling of [4] on the width and none
    on the height, and no floor at all. *)
Lemma C7_size_clamps_witness :
  let r := Rect.LBWH 0 0 10 10 in
  (Rect.width (Rect.max_size r (Some 4) None) == Qmin 4 10
   /\ Rect.height (Rect.max_size r (Some 4) None) = 10)
  /\ Rect.width (Rect.min_size r None None) == 10.
Proof.
  cbv zeta.
  pose proof (C7_size_clamps (Rect.LBWH 0 0 10 10) (Some 4) None) as H.
  pose proof (C7_size_clamps (Rect.LBWH 0 0 10 10) None None) as H'.
  cbv zeta in H, H'.
  destruct H as [_ [_ [_ [_ [Hw [_ [_ Hh]]]]]]].
  destruct H' as [_ [Hfloor _]].
  split; [split |].
  - apply (Hw 4 eq_refl). intro E. vm_compute in E. discriminate E.
  - apply (Hh eq_refl).
  - apply (Hfloor eq_refl). vm_compute. discriminate.
Defined.

(** ** [Box]: [overlaps], [intersection] and [point_in_box] *)

(** C8.  [overlaps] is true exactly when, on each of the three axes,
    half the summed extents is strictly greater than the distance of the
    centres.  [intersection] returns [None] exactly when [overlaps] is
    false; otherwise it returns the box that [LRBTNF] builds from the
    greater of the two lower bounds and the lesser of the two upper
    bounds on each axis. *)
Theorem C8_box_overlaps_and_intersection (a b : Box.t) :
  (Box.overlaps a b = true
   <-> Qabs (Box.x a - Box.x b) < (Box.width a + Box.width b) / 2
       /\ Qabs (Box.y a - Box.y b) < (Box.height a + Box.height b) / 2
       /\ Qabs (Box.z a - Box.z b) < (Box.depth a + Box.depth b) / 2)
  /\ (Box.intersection a b = None <-> Box.overlaps a b = false)
  /\ match Box.intersection a b with
     | None => Box.overlaps a b = false
     | Some c =>
       Box.overlaps a b = true
       /\ (exists l r bo t n f,
             c = Box.LRBTNF l r bo t n f
             /\ l == Qmax (Box.left a) (Box.left b)
             /\ r == Qmin (Box.right a) (Box.right b)
             /\ bo == Qmax (Box.bottom a) (Box.bottom b)
             /\ t == Qmin (Box.top a) (Box.top b)
             /\ n == Qmax (Box.near a) (Box.near b)
             /\ f == Qmin (Box.far a) (Box.far b))
       /\ (Box.left c == Qmax (Box.left a) (Box.left b)
           /\ Box.right c == Qmin (Box.right a) (Box.right b))
       /\ (Box.bottom c == Qmax (Box.bottom a) (Box.bottom b)
           /\ Box.top c == Qmin (Box.top a) (Box.top b))
       /\ (Box.near c == Qmax (Box.near a) (Box.near b)
           /\ Box.far c == Qmin (Box.far a) (Box.far b))
     end.
Proof.
  split; [| split].
  - unfold Box.overlaps, Py.abs. to_order. halves.
    split; intros [[Hx Hy] Hz] || intros [Hx [Hy Hz]];
      repeat split; lra.
  - unfold Box.intersection. destruct (Box.overlaps a b); cbn;
      split; congruence.
  - unfold Box.intersection. destruct (Box.overlaps a b); cbn;
      [| reflexivity].
    split; [reflexivity |]. split.
    + do 6 eexists. split; [reflexivity |].
      repeat split; apply max_is_Qmax || apply min_is_Qmin.
    + cbn. repeat split; apply max_is_Qmax || apply min_is_Qmin.
Qed.

(** On a box whose extents are not negative the eight corners satisfy
    the non-strict bounds. *)
Lemma corners_in_box (b : Box.t) (c : Vec3.t) :
  Box.left b <= Box.right b ->
  Box.bottom b <= Box.top b ->
  Box.near b <= Box.far b ->
  In c (Box.to_points b) ->
  Box.point_in_box b (Vec3.x c, Vec3.y c, Vec3.z c) = true.
Proof.
  intros Hx Hy Hz Hc. unfold Box.to_points in Hc. cbn in Hc.
  unfold Box.point_in_box.
  repeat (destruct Hc as [<- | Hc]); try contradiction;
    cbn; to_order; repeat split; (assumption || apply Qle_refl).
Qed.

(** C10.  [point_in_box] is true exactly when the point satisfies the
    six non-strict bounds, and [in] is [point_in_box]; so a point of a
    face of the box, on any of the three axes, is contained.
    [Rect.point_in_rect] is true exactly when the point satisfies the
    four strict bounds, so a point with a coordinate on a bound is not
    contained. *)
Theorem C10_point_in_box_is_closed
  (b : Box.t) (px py pz : Q) (r : Rect.t) (q : Vec2.t) :
  (Box.point_in_box b (px, py, pz) = true
   <-> (Box.left b <= px /\ px <= Box.right b)
       /\ (Box.bottom b <= py /\ py <= Box.top b)
       /\ (Box.near b <= pz /\ pz <= Box.far b))
  /\ Box.__contains__ b (px, py, pz) = Box.point_in_box b (px, py, pz)
  /\ ((px == Box.left b \/ px == Box.right b) ->
      Box.left b <= Box.right b ->
      (Box.bottom b <= py /\ py <= Box.top b) ->
      (Box.near b <= pz /\ pz <= Box.far b) ->
      Box.point_in_box b (px, py, pz) = true)
  /\ ((py == Box.bottom b \/ py == Box.top b) ->
      Box.bottom b <= Box.top b ->
      (Box.left b <= px /\ px <= Box.right b) ->
      (Box.near b <= pz /\ pz <= Box.far b) ->
      Box.point_in_box b (px, py, pz) = true)
  /\ ((pz == Box.near b \/ pz == Box.far b) ->
      Box.near b <= Box.far b ->
      (Box.left b <= px /\ px <= Box.right b) ->
      (Box.bottom b <= py /\ py <= Box.top b) ->
      Box.point_in_box b (px, py, pz) = true)
  /\ (Rect.point_in_rect r q = true
      <-> (Rect.left r < Vec2.x q /\ Vec2.x q < Rect.right r)
          /\ (Rect.bottom r < Vec2.y q /\ Vec2.y q < Rect.top r))
  /\ ((Vec2.x q == Rect.left r \/ Vec2.x q == Rect.right r
       \/ Vec2.y q == Rect.bottom r \/ Vec2.y q == Rect.top r) ->
      Rect.point_in_rect r q = false).
Proof.
  assert (Hbox : Box.point_in_box b (px, py, pz) = true
                 <-> (Box.left b <= px /\ px <= Box.right b)
                     /\ (Box.bottom b <= py /\ py <= Box.top b)
                     /\ (Box.near b <= pz /\ pz <= Box.far b)).
  { unfold Box.point_in_box. to_order. tauto. }
  assert (Hrect : Rect.point_in_rect r q = true
                  <-> (Rect.left r < Vec2.x q /\ Vec2.x q < Rect.right r)
                      /\ (Rect.bottom r < Vec2.y q
                          /\ Vec2.y q < Rect.top r)).
  { unfold Rect.point_in_rect. to_order. tauto. }
  split; [exact Hbox |]. split; [reflexivity |].
  split; [| split; [| split; [| split]]].
  - intros Hface Hx Hy Hz. apply Hbox.
    destruct Hface as [E | E]; repeat split; lra.
  - intros Hface Hy Hx Hz. apply Hbox.
    destruct Hface as [E | E]; repeat split; lra.
  - intros Hface Hz Hx Hy. apply Hbox.
    destruct Hface as [E | E]; repeat split; lra.
  - exact Hrect.
  - intro Hedge. apply not_true_is_false. intro Hin.
    apply Hrect in Hin. lra.
Qed.

(** C10 at the box [XYZWHD(0, 0, 0, 10, 10, 10)] and its corner
    [(-5, -5, -5)], and at the rect [LRBT(0, 10, 0, 10)] and the point
    [(0, 5)] of its left edge. *)
Lemma C10_point_in_box_is_closed_witness :
  Box.point_in_box (Box.XYZWHD 0 0 0 10 10 10) (-5, -5, -5) = true
  /\ Rect.point_in_rect (Rect.LRBT 0 10 0 10) (Vec2.mk 0 5) = false.
Proof.
  pose proof (C10_point_in_box_is_closed
                (Box.XYZWHD 0 0 0 10 10 10) (-5) (-5) (-5)
                (Rect.LRBT 0 10 0 10) (Vec2.mk 0 5)) as H.
  destruct H as [_ [_ [Hbox [_ [_ [_ Hrect]]]]]].
  split.
  - apply Hbox.
    + left. reflexivity.
    + discriminate.
    + split; discriminate.
    + split; discriminate.
  - apply Hrect. left. reflexivity.
Defined.

(** ** The parabola helper *)

(** C9.  Whatever calls were made before, [draw_parabola_filled] adds
    one call, of [draw_arc_filled], with centre
    [((start_x + end_x) / 2, start_y + height)], width
    [start_x - end_x], the given height and colour, start angle [0], end
    angle [180] and the given tilt angle, and returns [None]. *)
Theorem C9_parabola_filled_forwards_once
  (RGBA255 : Type) (start_x start_y end_x height : Q) (color : RGBA255)
  (tilt_angle : Q) (log : list (Draw.call RGBA255)) :
  Draw.draw_parabola_filled start_x start_y end_x height color tilt_angle
                            log
  = (tt, log ++ [Draw.draw_arc_filled
                   ((start_x + end_x) / 2) (start_y + height)
                   (start_x - end_x) height color 0 180 tilt_angle])
  /\ length (Draw.calls (Draw.draw_parabola_filled
                           start_x start_y end_x height color tilt_angle))
     = 1%nat.
Proof. split; reflexivity. Qed.

(** * Further properties of the code *)

(** ** Tools *)

Lemma max_cases (a b : Q) :
  (Py.max a b = a /\ b <= a) \/ (Py.max a b = b /\ a < b).
Proof.
  unfold Py.max. destruct (Py.gt b a) eqn:E; to_order; auto.
Qed.

Lemma min_cases (a b : Q) :
  (Py.min a b = a /\ a <= b) \/ (Py.min a b = b /\ b < a).
Proof.
  unfold Py.min. destruct (Py.lt b a) eqn:E; to_order; auto.
Qed.

(** Replaces every [Py.max] and [Py.min] by the argument it returns,
    with the order that made it so. *)
Ltac split_minmax :=
  repeat match goal with
  | |- context [Py.max ?a ?b] =>
      let E := fresh "E" in let H := fresh "H" in
      destruct (max_cases a b) as [[E H] | [E H]]; rewrite !E in *; clear E
  | |- context [Py.min ?a ?b] =>
      let E := fresh "E" in let H := fresh "H" in
      destruct (min_cases a b) as [[E H] | [E H]]; rewrite !E in *; clear E
  | _ : context [Py.max ?a ?b] |- _ =>
      let E := fresh "E" in let H := fresh "H" in
      destruct (max_cases a b) as [[E H] | [E H]]; rewrite !E in *; clear E
  | _ : context [Py.min ?a ?b] |- _ =>
      let E := fresh "E" in let H := fresh "H" in
      destruct (min_cases a b) as [[E H] | [E H]]; rewrite !E in *; clear E
  end.

(** Two booleans are equal when each is true exactly when the other
    is. *)
Lemma bool_ext (a b : bool) : (a = true <-> b = true) -> a = b.
Proof. destruct a, b; intuition congruence. Qed.


(** ** Constructors and conversions of [Rect] *)




(** X4.  The base class lists [top] before [bottom] in [Rect.from_rect]:
    a rect made of that tuple has the two exchanged, and equals the
    first one exactly when [top == bottom]. *)
Theorem base_from_rect_exchanges_bottom_and_top (r : Rect.t) :
  let r' := Rect.new (Rect.Rect_from_rect r) in
  Rect.bottom r' = Rect.top r
  /\ Rect.top r' = Rect.bottom r
  /\ (Rect.eqb r' r = true <-> Rect.top r == Rect.bottom r).
Proof.
  cbv zeta. split; [reflexivity | split; [reflexivity |]].
  unfold Rect.eqb, Rect.Rect_from_rect. open_rect. to_order. split.
  - intros [[[[[[[_ _] H] _] _] _] _] _]. exact H.
  - intro H. repeat split; try reflexivity; lra.
Qed.


(** ** [move] and the alignment methods *)





(** ** [union], [intersect], [collides] and containment *)

(** X9.  [union] does not depend on the order of the two rects, always returns
    a rect that satisfies the four equations, and its bounds enclose the
    bounds of both. *)
Theorem union_commutes_and_encloses (a b : Rect.t) :
  let u := Rect.union a b in
  Rect.eqb u (Rect.union b a) = true
  /\ Spec.rect_invariant u = true
  /\ (Rect.left u <= Rect.left a /\ Rect.left u <= Rect.left b)
  /\ (Rect.right a <= Rect.right u /\ Rect.right b <= Rect.right u)
  /\ (Rect.bottom u <= Rect.bottom a /\ Rect.bottom u <= Rect.bottom b)
  /\ (Rect.top a <= Rect.top u /\ Rect.top b <= Rect.top u).
Proof.
  cbv zeta. split; [| split; [apply LRBT_invariant |]].
  - unfold Rect.eqb, Rect.union. open_rect. halves. to_order.
    split_minmax; repeat split; lra.
  - unfold Rect.union. open_rect. split_minmax; repeat split; lra.
Qed.

(** X10.  A point contained in one of two rects is contained in their
    union. *)
Theorem union_contains_points (a b : Rect.t) (p : Vec2.t) :
  Rect.point_in_rect a p = true \/ Rect.point_in_rect b p = true ->
  Rect.point_in_rect (Rect.union a b) p = true.
Proof.
  unfold Rect.point_in_rect, Rect.union. open_rect. to_order.
  intros [[[? ?] [? ?]] | [[? ?] [? ?]]]; split_minmax; repeat split; lra.
Qed.

(** [union_contains_points] at [LRBT(0, 2, 0, 2)], [LRBT(5, 6, 5, 6)]
    and the point [(1, 1)]. *)
Lemma union_contains_points_witness :
  Rect.point_in_rect
    (Rect.union (Rect.LRBT 0 2 0 2) (Rect.LRBT 5 6 5 6)) (Vec2.mk 1 1)
  = true.
Proof.
  apply (union_contains_points (Rect.LRBT 0 2 0 2) (Rect.LRBT 5 6 5 6)
                               (Vec2.mk 1 1)).
  left. reflexivity.
Defined.

(** X11.  [collides] is symmetric and [intersect] does not depend on the order
    of the two rects: both orders give [None], or both give equal
    rects. *)
Theorem intersect_commutes (a b : Rect.t) :
  Rect.collides a b = Rect.collides b a
  /\ Spec.option_rect_eqb (Rect.intersect a b) (Rect.intersect b a) = true.
Proof.
  assert (Hc : Rect.collides a b = Rect.collides b a).
  { apply bool_ext. unfold Rect.collides. to_order. tauto. }
  split; [exact Hc |].
  unfold Rect.intersect. rewrite <- Hc.
  destruct (Rect.collides a b); cbn [negb Spec.option_rect_eqb];
    [| reflexivity].
  unfold Rect.eqb. open_rect. halves. to_order.
  split_minmax; repeat split; lra.
Qed.

(** X12.  When each of two rects has its left edge not right of its right edge
    and its bottom edge not above its top edge, the rect [intersect]
    returns satisfies the four equations, has a width and a height that
    are not negative, and its bounds lie within the bounds of both. *)
Theorem intersect_of_oriented (a b c : Rect.t) :
  Rect.left a <= Rect.right a -> Rect.bottom a <= Rect.top a ->
  Rect.left b <= Rect.right b -> Rect.bottom b <= Rect.top b ->
  Rect.intersect a b = Some c ->
  Spec.rect_invariant c = true
  /\ (0 <= Rect.width c /\ 0 <= Rect.height c)
  /\ (Rect.left a <= Rect.left c /\ Rect.left b <= Rect.left c)
  /\ (Rect.right c <= Rect.right a /\ Rect.right c <= Rect.right b)
  /\ (Rect.bottom a <= Rect.bottom c /\ Rect.bottom b <= Rect.bottom c)
  /\ (Rect.top c <= Rect.top a /\ Rect.top c <= Rect.top b).
Proof.
  intros Ha Ha' Hb Hb'. unfold Rect.intersect.
  destruct (Rect.collides a b) eqn:Hc; cbn [negb]; [| discriminate].
  intro E. injection E as <-. split; [apply LRBT_invariant |].
  unfold Rect.collides in Hc. to_order. open_rect.
  split_minmax; repeat split; lra.
Qed.

(** [intersect_of_oriented] at [LRBT(0, 10, 0, 10)] and
    [LRBT(5, 15, 5, 15)]. *)
Lemma intersect_of_oriented_witness :
  let c := Rect.LRBT (Py.max 0 5) (Py.min 10 15) (Py.max 0 5)
                     (Py.min 10 15) in
  0 <= Rect.width c /\ 0 <= Rect.height c.
Proof.
  cbv zeta.
  pose proof (intersect_of_oriented
                (Rect.LRBT 0 10 0 10) (Rect.LRBT 5 15 5 15)
                (Rect.LRBT (Py.max 0 5) (Py.min 10 15) (Py.max 0 5)
                           (Py.min 10 15))) as H.
  apply H; try discriminate. reflexivity.
Defined.

Lemma lt_max_l (a b v : Q) :
  Py.lt (Py.max a b) v = Py.lt a v && Py.lt b v.
Proof.
  apply bool_ext. to_order. split_minmax; intuition lra.
Qed.

Lemma lt_min_r (a b v : Q) :
  Py.lt v (Py.min a b) = Py.lt v a && Py.lt v b.
Proof.
  apply bool_ext. to_order. split_minmax; intuition lra.
Qed.

(** X13.  The rect [intersect] returns contains exactly the points that both
    rects contain; and two rects that contain a common point have an
    intersection. *)
Theorem point_in_intersection (a b : Rect.t) (p : Vec2.t) :
  (forall c, Rect.intersect a b = Some c ->
     Rect.point_in_rect c p
     = Rect.point_in_rect a p && Rect.point_in_rect b p)
  /\ (Rect.point_in_rect a p = true -> Rect.point_in_rect b p = true ->
      Rect.intersect a b <> None).
Proof.
  split.
  - intros c. unfold Rect.intersect.
    destruct (Rect.collides a b); cbn [negb]; [| discriminate].
    intro E. injection E as <-. unfold Rect.point_in_rect. open_rect.
    rewrite !lt_max_l, !lt_min_r.
    repeat match goal with
           | |- context [Py.lt ?u ?v] => destruct (Py.lt u v)
           end; reflexivity.
  - intros Ha Hb. unfold Rect.intersect.
    assert (Hc : Rect.collides a b = true).
    { unfold Rect.point_in_rect in Ha, Hb. unfold Rect.collides.
      to_order. intuition lra. }
    rewrite Hc. discriminate.
Qed.

(** [point_in_intersection] at [LRBT(0, 10, 0, 10)],
    [LRBT(5, 15, 5, 15)] and the point [(7, 7)]. *)
Lemma point_in_intersection_witness :
  Rect.intersect (Rect.LRBT 0 10 0 10) (Rect.LRBT 5 15 5 15) <> None.
Proof.
  pose proof (point_in_intersection
                (Rect.LRBT 0 10 0 10) (Rect.LRBT 5 15 5 15)
                (Vec2.mk 7 7)) as [_ H].
  apply H; reflexivity.
Defined.

(** X15.  How loose [overlaps] is: on two rects whose edges are in order it is
    false only when both rects are one and the same point. *)
Theorem overlaps_false_only_on_one_point (a b : Rect.t) :
  Rect.left a <= Rect.right a -> Rect.bottom a <= Rect.top a ->
  Rect.left b <= Rect.right b -> Rect.bottom b <= Rect.top b ->
  (Rect.overlaps a b = false
   <-> (Rect.right a == Rect.left a /\ Rect.left b == Rect.left a
        /\ Rect.right b == Rect.left a)
       /\ (Rect.top a == Rect.bottom a /\ Rect.bottom b == Rect.bottom a
           /\ Rect.top b == Rect.bottom a)).
Proof.
  intros Ha Ha' Hb Hb'. unfold Rect.overlaps, Rect.__or__, Rect.union.
  open_rect. to_order. split.
  - intros [Hw Hh]. split_minmax; repeat split; lra.
  - intros [[? [? ?]] [? [? ?]]]. split_minmax; split; lra.
Qed.

(** [overlaps_false_only_on_one_point] at the point rect
    [LRBT(3, 3, 4, 4)] taken twice. *)
Lemma overlaps_false_only_on_one_point_witness :
  Rect.overlaps (Rect.LRBT 3 3 4 4) (Rect.LRBT 3 3 4 4) = false.
Proof.
  apply (overlaps_false_only_on_one_point
           (Rect.LRBT 3 3 4 4) (Rect.LRBT 3 3 4 4));
    try discriminate.
  repeat split.
Defined.

(** X16.  No corner of a rect is contained in it, and [to_points] lists the
    corners bottom-left, top-left, top-right, bottom-right. *)
Theorem no_corner_in_rect (r : Rect.t) :
  Rect.to_points r
  = [Rect.bottom_left r; Rect.top_left r; Rect.top_right r;
     Rect.bottom_right r]
  /\ forallb (fun c => negb (Rect.point_in_rect r c)) (Rect.to_points r)
     = true.
Proof.
  split; [reflexivity |].
  unfold Rect.to_points, Rect.point_in_rect. cbn [forallb Vec2.x Vec2.y].
  to_order. repeat split; auto using Qle_refl.
Qed.

(** ** [resize], [scale] and the size clamps *)

(** X17.  [resize] raises [ZeroDivisionError] exactly on a rect whose stored
    width or height is zero, whatever the new size and the anchor. *)
Theorem resize_raises_iff_zero_size (r : Rect.t) (s a : Vec2.t) :
  Rect.resize r s a = None
  <-> Rect.width r == 0 \/ Rect.height r == 0.
Proof.
  unfold Rect.resize, Py.div.
  destruct (Py.eq (Rect.width r) 0) eqn:Ew;
    destruct (Py.eq (Rect.height r) 0) eqn:Eh; to_order;
    split; intro H; try discriminate H; try reflexivity; tauto.
Qed.




(** ** [Box] *)

(** Unfolds a box constructor call down to the record and its fields. *)
Ltac open_box :=
  unfold Spec.box_invariant, Box.eqb, Box.XYZWHD, Box.LRBTNF in *;
  cbn [Box.left Box.right Box.bottom Box.top Box.near Box.far
       Box.width Box.height Box.depth Box.x Box.y Box.z
       Vec3.x Vec3.y Vec3.z] in *.

Lemma XYZWHD_invariant (a b c d e f : Q) :
  Spec.box_invariant (Box.XYZWHD a b c d e f) = true.
Proof. open_box. halves. to_order. repeat split; lra. Qed.

Lemma LRBTNF_invariant (a b c d e f : Q) :
  Spec.box_invariant (Box.LRBTNF a b c d e f) = true.
Proof. open_box. halves. to_order. repeat split; lra. Qed.




(** [at_position] puts the centre at the position and keeps the size;
    the box it returns satisfies the six equations, and it is the box
    [move] returns for the offsets from the centre to the position. *)
Theorem box_at_position_recentres (b : Box.t) (px py pz : Q) :
  let m := Box.at_position b (px, py, pz) in
  Box.center m = Vec3.mk px py pz
  /\ Box.size m = Box.size b
  /\ Spec.box_invariant m = true
  /\ Box.eqb m (Box.move b (px - Box.x b) (py - Box.y b) (pz - Box.z b))
     = true.
Proof.
  cbv zeta. unfold Box.at_position, Box.move, Box.center, Box.size.
  open_box. halves. to_order. repeat split; lra.
Qed.


(** X24.  [overlaps] is symmetric and [intersection] does not depend on the
    order of the two boxes. *)
Theorem box_intersection_commutes (a b : Box.t) :
  Box.overlaps a b = Box.overlaps b a
  /\ Spec.option_box_eqb (Box.intersection a b) (Box.intersection b a)
     = true.
Proof.
  assert (Hc : Box.overlaps a b = Box.overlaps b a).
  { apply bool_ext. unfold Box.overlaps, Py.abs. to_order. halves.
    rewrite (Qabs_Qminus (Box.x a)), (Qabs_Qminus (Box.y a)),
      (Qabs_Qminus (Box.z a)).
    split; intros [[? ?] ?]; repeat split; lra. }
  split; [exact Hc |].
  unfold Box.intersection. rewrite <- Hc.
  destruct (Box.overlaps a b); cbn [negb Spec.option_box_eqb];
    [| reflexivity].
  open_box. halves. to_order. split_minmax; repeat split; lra.
Qed.






Lemma le_max_l (a b v : Q) :
  Py.le (Py.max a b) v = Py.le a v && Py.le b v.
Proof.
  apply bool_ext. to_order. split_minmax; intuition lra.
Qed.

Lemma le_min_r (a b v : Q) :
  Py.le v (Py.min a b) = Py.le v a && Py.le v b.
Proof.
  apply bool_ext. to_order. split_minmax; intuition lra.
Qed.

(** X28.  The box [intersection] returns contains exactly the points that both
    boxes contain. *)
Theorem point_in_box_intersection (a b c : Box.t) (p : Point3) :
  Box.intersection a b = Some c ->
  Box.point_in_box c p = Box.point_in_box a p && Box.point_in_box b p.
Proof.
  unfold Box.intersection.
  destruct (Box.overlaps a b); cbn [negb]; [| discriminate].
  intro E. injection E as <-. destruct p as [[px py] pz].
  unfold Box.point_in_box. open_box.
  rewrite !le_max_l, !le_min_r.
  repeat match goal with
         | |- context [Py.le ?u ?v] => destruct (Py.le u v)
         end; reflexivity.
Qed.

(** [point_in_box_intersection] at [LRBTNF(0, 2, 0, 2, 0, 2)],
    [LRBTNF(1, 3, 1, 3, 1, 3)] and the point [(1, 1, 1)], a corner of
    the second box inside the first. *)
Lemma point_in_box_intersection_witness :
  Box.point_in_box
    (Box.LRBTNF (Py.max 0 1) (Py.min 2 3) (Py.max 0 1) (Py.min 2 3)
                (Py.max 0 1) (Py.min 2 3))
    (1, 1, 1)
  = true.
Proof.
  pose proof (point_in_box_intersection
                (Box.LRBTNF 0 2 0 2 0 2) (Box.LRBTNF 1 3 1 3 1 3)
                (Box.LRBTNF (Py.max 0 1) (Py.min 2 3) (Py.max 0 1)
                            (Py.min 2 3) (Py.max 0 1) (Py.min 2 3))
                (1, 1, 1) eq_refl) as H.
  rewrite H. reflexivity.
Defined.



(** X14.  Touching is intersecting for rects: when two colliding rects whose
    edges are in order have the right edge of one equal to the left edge
    of the other, [intersect] returns a rect of width zero. *)
Theorem touching_rects_intersect_in_a_line (a b : Rect.t) :
  Rect.left a <= Rect.right a ->
  Rect.left b <= Rect.right b ->
  Rect.right a == Rect.left b ->
  Rect.collides a b = true ->
  exists c,
    Rect.intersect a b = Some c
    /\ Rect.width c == 0
    /\ Rect.left c == Rect.right a
    /\ Rect.right c == Rect.right a.
Proof.
  intros Ha Hb Ht Hc. unfold Rect.intersect. rewrite Hc. cbn [negb].
  eexists. split; [reflexivity |]. open_rect.
  split_minmax; repeat split; lra.
Qed.

(** [touching_rects_intersect_in_a_line] at [LRBT(0, 1, 0, 1)] and
    [LRBT(1, 2, 0, 1)]. *)
Lemma touching_rects_intersect_in_a_line_witness :
  exists c,
    Rect.intersect (Rect.LRBT 0 1 0 1) (Rect.LRBT 1 2 0 1) = Some c
    /\ Rect.width c == 0.
Proof.
  destruct (touching_rects_intersect_in_a_line
              (Rect.LRBT 0 1 0 1) (Rect.LRBT 1 2 0 1))
    as [c [E [Hw _]]]; try reflexivity; try discriminate.
  exists c. split; [exact E | exact Hw].
Defined.

(** X29.  [union] of boxes does not depend on the order of the two boxes,
    returns a box that satisfies the six equations, and contains every
    point that one of the two contains. *)
Theorem box_union_commutes_and_contains (a b : Box.t) (p : Point3) :
  Box.eqb (Box.union a b) (Box.union b a) = true
  /\ Spec.box_invariant (Box.union a b) = true
  /\ (Box.point_in_box a p = true \/ Box.point_in_box b p = true ->
      Box.point_in_box (Box.union a b) p = true).
Proof.
  split; [| split].
  - unfold Box.union. open_box. halves. to_order.
    split_minmax; repeat split; lra.
  - apply LRBTNF_invariant.
  - destruct p as [[px py] pz]. unfold Box.point_in_box, Box.union.
    open_box. to_order.
    intros [[[[? ?] [? ?]] [? ?]] | [[[? ?] [? ?]] [? ?]]];
      split_minmax; repeat split; lra.
Qed.

(** [box_union_commutes_and_contains] at two unit cubes that are apart
    and the centre of the first. *)
Lemma box_union_commutes_and_contains_witness :
  Box.point_in_box
    (Box.union (Box.XYZWHD 0 0 0 1 1 1) (Box.XYZWHD 5 5 5 1 1 1))
    (0, 0, 0)
  = true.
Proof.
  pose proof (box_union_commutes_and_contains
                (Box.XYZWHD 0 0 0 1 1 1) (Box.XYZWHD 5 5 5 1 1 1)
                (0, 0, 0)) as [_ [_ H]].
  apply H. left. reflexivity.
Defined.

(** X30.  [to_points] lists the eight corner properties in the order its
    docstring gives.  On a box whose bounds are in order on the three
    axes every corner is contained in the box; a box with two bounds out
    of order on some axis contains no point at all. *)
Theorem box_corners (b : Box.t) (p : Point3) :
  Box.to_points b
  = [Box.bottom_left_near b; Box.top_left_near b; Box.top_right_near b;
     Box.bottom_right_near b; Box.bottom_left_far b; Box.top_left_far b;
     Box.top_right_far b; Box.bottom_right_far b]
  /\ (Box.left b <= Box.right b -> Box.bottom b <= Box.top b ->
      Box.near b <= Box.far b ->
      forallb (fun c => Box.point_in_box b (Vec3.x c, Vec3.y c, Vec3.z c))
              (Box.to_points b) = true)
  /\ (Box.right b < Box.left b \/ Box.top b < Box.bottom b
      \/ Box.far b < Box.near b ->
      Box.point_in_box b p = false).
Proof.
  split; [reflexivity | split].
  - intros Hx Hy Hz. apply forallb_forall. intros c Hc.
    apply corners_in_box; assumption.
  - destruct p as [[px py] pz]. intro H. apply not_true_is_false.
    unfold Box.point_in_box. to_order. intuition lra.
Qed.

(** [box_corners] at [XYZWHD(0, 0, 0, 10, 10, 10)], and at
    [LRBTNF(1, 0, 0, 1, 0, 1)] with the point [(1, 0, 0)], one of its
    corners. *)
Lemma box_corners_witness :
  forallb (fun c =>
             Box.point_in_box (Box.XYZWHD 0 0 0 10 10 10)
                              (Vec3.x c, Vec3.y c, Vec3.z c))
          (Box.to_points (Box.XYZWHD 0 0 0 10 10 10)) = true
  /\ Box.point_in_box (Box.LRBTNF 1 0 0 1 0 1) (1, 0, 0) = false.
Proof.
  split.
  - apply (box_corners (Box.XYZWHD 0 0 0 10 10 10) (0, 0, 0));
      discriminate.
  - apply (box_corners (Box.LRBTNF 1 0 0 1 0 1) (1, 0, 0)).
    left. reflexivity.
Defined.

(** Opposite faces are one and the same rect: [near_face] and
    [far_face], [left_face] and [right_face], [top_face] and
    [bottom_face]; each satisfies the four equations of a rect.
    [bottom_face_center] is [top_face_center]: it lies at the height of
    the bottom exactly when [top == bottom]. *)
Theorem opposite_faces_coincide (b : Box.t) :
  (Box.near_face b = Box.far_face b
   /\ Box.left_face b = Box.right_face b
   /\ Box.top_face b = Box.bottom_face b)
  /\ (Spec.rect_invariant (Box.near_face b) = true
      /\ Spec.rect_invariant (Box.left_face b) = true
      /\ Spec.rect_invariant (Box.top_face b) = true)
  /\ Box.bottom_face_center b = Box.top_face_center b
  /\ (Vec3.y (Box.bottom_face_center b) == Box.bottom b
      <-> Box.top b == Box.bottom b).
Proof.
  split; [repeat split |]. split; [repeat split; apply LBWH_invariant |].
  split; [reflexivity |]. cbn. reflexivity.
Qed.

(** ** The outline helper *)

(** [draw_parabola_outline] adds one call, of [draw_arc_outline], with
    the centre, width, height and angles [draw_parabola_filled] passes
    to [draw_arc_filled], and the border width before the tilt
    angle. *)
Theorem parabola_outline_forwards_once
  (RGBA255 : Type) (start_x start_y end_x height : Q) (color : RGBA255)
  (border_width tilt_angle : Q) (log : list (Draw.call RGBA255)) :
  Draw.draw_parabola_outline start_x start_y end_x height color
                             border_width tilt_angle log
  = (tt, log ++ [Draw.draw_arc_outline
                   ((start_x + end_x) / 2) (start_y + height)
                   (start_x - end_x) height color 0 180
                   border_width tilt_angle])
  /\ length (Draw.calls (Draw.draw_parabola_outline
                           start_x start_y end_x height color
                           border_width tilt_angle))
     = 1%nat.
Proof. split; reflexivity. Qed.
